(** * DialAction: the Home Assistant dial action of the StreamController plugin

    A shallow embedding of [actions/HomeAssistantAction/dial_action.py]:
    the four dial settings, the event dispatch of [event_callback], the
    settings write-through of [_save_dial_settings] and the four
    change handlers, followed by the properties of the specification that
    concern them. *)

From Stdlib Require Import String Ascii ZArith List Lia.
From Stdlib Require QArith.QArith_base.
From stdpp Require Import base option gmap strings.

Local Open Scope Z_scope.
Local Open Scope string_scope.

(** ** Strings: truthiness and [str.split('.', 1)]

    A Python [str] is taken as the bytes of its UTF-8 encoding. The byte of
    the dot occurs in an encoded string exactly where the string has a dot,
    so emptiness and the split at the first dot are the same on both. *)

(** [bool(s)] for a Python [str]: only the empty string is falsy. *)
Definition truthy (s : string) : bool :=
  match s with
  | EmptyString => false
  | String _ _ => true
  end.

(** [s.partition('.')] restricted to the case where the separator occurs:
    the text before the first dot and the text after it. *)
Fixpoint partition_dot (s : string) : option (string * string) :=
  match s with
  | EmptyString => None
  | String c rest =>
      if Ascii.eqb c "."%char then Some (EmptyString, rest)
      else match partition_dot rest with
           | Some (before, after) => Some (String c before, after)
           | None => None
           end
  end.

(** [s.split('.', 1)]: at most one split, at the first dot. A string
    without a dot (the empty string too) comes back as a one-element list. *)
Definition split_dot_1 (s : string) : list string :=
  match partition_dot s with
  | Some (before, after) => [before; after]
  | None => [s]
  end.

(** The words of the specification: a string "contains at least one '.'",
    and "the substring after the first '.'". They are stated on positions,
    independently of [split_dot_1]. *)
Fixpoint contains_dot (s : string) : bool :=
  match s with
  | EmptyString => false
  | String c rest => Ascii.eqb c "."%char || contains_dot rest
  end.

Definition after_first_dot (s : string) : option string :=
  match String.index 0 "." s with
  | Some n => Some (String.substring (S n) (String.length s - S n) s)
  | None => None
  end.

(** ** Values, exceptions, events *)

(** The values this module stores in a settings dict or sends as service
    data: Python [str] and (unbounded) [int]. *)
Inductive Value : Type :=
| VStr (s : string)
| VInt (n : Z).

Global Instance Value_eq_dec : EqDecision Value.
Proof. solve_decision. Defined.

(** What the two [except] clauses of [event_callback] distinguish in an
    exception: whether it is a [ValueError], some other [Exception], or an
    exception outside the [Exception] class ([KeyboardInterrupt],
    [SystemExit], [GeneratorExit], ...). *)
Inductive ExcKind : Type :=
| KValueError
| KException
| KBaseException.

Record PyExc : Type := mkExc { exc_kind : ExcKind; exc_text : string }.

Definition isinstance_ValueError (e : PyExc) : bool :=
  match exc_kind e with
  | KValueError => true
  | _ => false
  end.

Definition isinstance_Exception (e : PyExc) : bool :=
  match exc_kind e with
  | KValueError | KException => true
  | KBaseException => false
  end.

(** Tuple unpacking [a, b = parts]: a [ValueError] unless there are
    exactly two parts. *)
Definition unpack2 (parts : list string) : PyExc + (string * string) :=
  match parts with
  | [a; b] => inr (a, b)
  | [] | [_] => inl (mkExc KValueError "not enough values to unpack (expected 2)")
  | _ => inl (mkExc KValueError "too many values to unpack (expected 2)")
  end.

(** [InputEvent]: the three dial events this action handles, and every
    other event of the host, kept by its name. *)
Inductive InputEvent : Type :=
| DOWN
| TURN_CW
| TURN_CCW
| OtherEvent (name : string).

Global Instance InputEvent_eq_dec : EqDecision InputEvent.
Proof. solve_decision. Defined.

(** Constants for settings keys. *)
Definition SETTING_DIAL_ENTITY_ID : string := "dial_entity_id".
Definition SETTING_DIAL_STEP_SIZE : string := "dial_step_size".
Definition SETTING_DIAL_TURN_SERVICE : string := "dial_turn_service".
Definition SETTING_DIAL_PRESS_SERVICE : string := "dial_press_service".

(** The settings attributes of a [DialAction] instance, with the types of
    their annotations. *)
Record DialAction : Type := mkDialAction {
  dial_entity_id : string;
  dial_step_size : Z;
  dial_turn_service : string;
  dial_press_service : string
}.

(** The attributes as [__init__] sets them before loading. *)
Definition init_attributes : DialAction :=
  {| dial_entity_id := "";
     dial_step_size := 1;
     dial_turn_service := "";
     dial_press_service := "" |}.

(** The widgets the change handlers read from. A [Gtk.Adjustment] holds a
    double; a finite double is a rational number. *)
Record EntryRow : Type := mkEntryRow { get_text : string }.
Record Adjustment : Type := mkAdjustment { get_value : QArith_base.Q }.

(** [int(x)] of a finite double: truncation towards zero. *)
Definition python_int (x : QArith_base.Q) : Z :=
  Z.quot (QArith_base.Qnum x) (Z.pos (QArith_base.Qden x)).

(** The lines [event_callback] prints, one constructor per [print] with
    the values its f-string interpolates. *)
Inductive Direction : Type := CW | CCW.

Inductive Notice : Type :=
| NoEntityId
| CallingPress (press_service entity_id : string)
| PressSuccessful (press_service entity_id : string)
| InvalidPressFormat (press_service : string)
| PressError (press_service entity_id : string) (e : PyExc)
| NoPressService
| CallingTurn (d : Direction) (service_name entity_id : string)
              (service_data : gmap string Value)
| TurnSuccessful (d : Direction) (turn_service : string)
| InvalidTurnFormat (turn_service : string)
| TurnError (d : Direction) (turn_service entity_id : string) (e : PyExc)
| NoTurnService (d : Direction).

(** What one run does to the outside, in order: lines printed, calls of
    [plugin_base.backend.call_service], calls of [set_settings]. *)
Inductive Effect : Type :=
| EPrint (n : Notice)
| ECallService (entity service : string) (parameters : gmap string Value)
| ESetSettings (settings : gmap string Value).

(** How [event_callback] ends when it does not raise: by returning, or by
    the tail call [super().event_callback(event, data)]. The base class is
    not part of this module; [SuperCall event data] says that it takes over
    with that event and payload, in the state reached so far. *)
Inductive Completion (Payload : Type) : Type :=
| Return
| SuperCall (event : InputEvent) (data : Payload).

Arguments Return {Payload}.
Arguments SuperCall {Payload} event data.

(** ** The state and the monad of the methods *)

Section Model.

(** The home-automation backend behind [plugin_base.backend]: any state,
    and any [call_service], which returns or raises. The payload of an
    event is a dict the action never looks into. *)
Context {Backend : Type} {Payload : Type}.

Inductive CallResult : Type :=
| Returns
| Raises (e : PyExc).

Variable backend_call_service :
  Backend -> string -> string -> gmap string Value -> Backend * CallResult.

(** Everything a method can read or change: the attributes of the
    instance, the settings dict the host keeps for this action (behind
    [get_settings] and [set_settings]), and the backend. *)
Record World : Type := mkWorld {
  self : DialAction;
  settings : gmap string Value;
  backend : Backend
}.

(** One run of a method: the effects in order, the state it leaves, and
    the value returned or the exception raised. *)
Record Run (A : Type) : Type := mkRun {
  effects : list Effect;
  final : World;
  result : PyExc + A
}.

Arguments mkRun {A} effects final result.
Arguments effects {A} r.
Arguments final {A} r.
Arguments result {A} r.

Definition M (A : Type) : Type := World -> Run A.

Definition ret {A : Type} (a : A) : M A :=
  fun w => mkRun [] w (inr a).

Definition bind {A B : Type} (m : M A) (k : A -> M B) : M B :=
  fun w =>
    match m w with
    | mkRun l w' (inl e) => mkRun l w' (inl e)
    | mkRun l w' (inr a) =>
        match k a w' with
        | mkRun l' w'' x => mkRun (l ++ l') w'' x
        end
    end.

#[local] Instance M_ret : MRet M := @ret.
#[local] Instance M_bind : MBind M := fun A B k m => bind m k.

Definition raise {A : Type} (e : PyExc) : M A :=
  fun w => mkRun [] w (inl e).

(** Lifting a pure computation that may raise. *)
Definition lift {A : Type} (x : PyExc + A) : M A :=
  fun w => mkRun [] w x.

(** [try: body / except ValueError: h1 / except Exception as e: h2 e].
    An exception of neither class goes on to the caller. *)
Definition try_except (body : M unit) (on_value_error : M unit)
    (on_exception : PyExc -> M unit) : M unit :=
  fun w =>
    match body w with
    | mkRun l w' (inr tt) => mkRun l w' (inr tt)
    | mkRun l w' (inl e) =>
        if isinstance_ValueError e then
          match on_value_error w' with
          | mkRun l' w'' x => mkRun (l ++ l') w'' x
          end
        else if isinstance_Exception e then
          match on_exception e w' with
          | mkRun l' w'' x => mkRun (l ++ l') w'' x
          end
        else mkRun l w' (inl e)
    end.

Definition print (n : Notice) : M unit :=
  fun w => mkRun [EPrint n] w (inr tt).

Definition get_self : M DialAction :=
  fun w => mkRun [] w (inr (self w)).

Definition set_self (a : DialAction) : M unit :=
  fun w => mkRun [] (mkWorld a (settings w) (backend w)) (inr tt).

(** [self.get_settings()] and [self.set_settings(settings)] of the host's
    action base class: read the dict kept for this action, overwrite it. *)
Definition get_settings : M (gmap string Value) :=
  fun w => mkRun [] w (inr (settings w)).

Definition set_settings (m : gmap string Value) : M unit :=
  fun w => mkRun [ESetSettings m] (mkWorld (self w) m (backend w)) (inr tt).

(** [self.plugin_base.backend.call_service(entity, service, parameters)]. *)
Definition call_service (entity service : string)
    (parameters : gmap string Value) : M unit :=
  fun w =>
    let '(b, outcome) :=
      backend_call_service (backend w) entity service parameters in
    mkRun [ECallService entity service parameters]
          (mkWorld (self w) (settings w) b)
          (match outcome with
           | Returns => inr tt
           | Raises e => inl e
           end).

(** ** The methods of [DialAction] *)

(** The four attributes as [_load_dial_settings] leaves them. Python does
    not check the annotations: each attribute holds whatever value the
    settings hold under its key. *)
Record Loaded : Type := mkLoaded {
  loaded_entity_id : Value;
  loaded_step_size : Value;
  loaded_turn_service : Value;
  loaded_press_service : Value
}.

(** [settings.get(key, default)]. *)
Definition dict_get (m : gmap string Value) (key : string) (default : Value)
    : Value :=
  match m !! key with
  | Some v => v
  | None => default
  end.

Definition _load_dial_settings (m : gmap string Value) : Loaded :=
  {| loaded_entity_id := dict_get m SETTING_DIAL_ENTITY_ID (VStr "");
     loaded_step_size := dict_get m SETTING_DIAL_STEP_SIZE (VInt 1);
     loaded_turn_service := dict_get m SETTING_DIAL_TURN_SERVICE (VStr "");
     loaded_press_service := dict_get m SETTING_DIAL_PRESS_SERVICE (VStr "") |}.

Definition _save_dial_settings : M unit :=
  a ← get_self;
  settings ← get_settings;
  let settings := <[SETTING_DIAL_ENTITY_ID := VStr (dial_entity_id a)]> settings in
  let settings := <[SETTING_DIAL_STEP_SIZE := VInt (dial_step_size a)]> settings in
  let settings := <[SETTING_DIAL_TURN_SERVICE := VStr (dial_turn_service a)]> settings in
  let settings := <[SETTING_DIAL_PRESS_SERVICE := VStr (dial_press_service a)]> settings in
  set_settings settings.

Definition event_callback (event : InputEvent) (data : Payload)
    : M (Completion Payload) :=
  a ← get_self;
  if negb (truthy (dial_entity_id a)) then
    print NoEntityId;;
    mret Return
  else if decide (event = DOWN) then
    (if truthy (dial_press_service a) then
       print (CallingPress (dial_press_service a) (dial_entity_id a));;
       try_except
         ('(_domain, service_name) ← lift (unpack2 (split_dot_1 (dial_press_service a)));
          let service_data : gmap string Value :=
            {[ "entity_id" := VStr (dial_entity_id a) ]} in
          call_service (dial_entity_id a) service_name service_data;;
          print (PressSuccessful (dial_press_service a) (dial_entity_id a)))
         (print (InvalidPressFormat (dial_press_service a)))
         (fun e => print (PressError (dial_press_service a) (dial_entity_id a) e))
     else
       print NoPressService);;
    mret Return
  else if decide (event = TURN_CW) then
    (if truthy (dial_turn_service a) then
       try_except
         ('(_domain, service_name) ← lift (unpack2 (split_dot_1 (dial_turn_service a)));
          let step := dial_step_size a in
          let service_data : gmap string Value :=
            <[ "brightness_step_pct" := VInt step ]>
              {[ "entity_id" := VStr (dial_entity_id a) ]} in
          print (CallingTurn CW service_name (dial_entity_id a) service_data);;
          call_service (dial_entity_id a) service_name service_data;;
          print (TurnSuccessful CW (dial_turn_service a)))
         (print (InvalidTurnFormat (dial_turn_service a)))
         (fun e => print (TurnError CW (dial_turn_service a) (dial_entity_id a) e))
     else
       print (NoTurnService CW));;
    mret Return
  else if decide (event = TURN_CCW) then
    (if truthy (dial_turn_service a) then
       try_except
         ('(_domain, service_name) ← lift (unpack2 (split_dot_1 (dial_turn_service a)));
          let step := - dial_step_size a in
          let service_data : gmap string Value :=
            <[ "brightness_step_pct" := VInt step ]>
              {[ "entity_id" := VStr (dial_entity_id a) ]} in
          print (CallingTurn CCW service_name (dial_entity_id a) service_data);;
          call_service (dial_entity_id a) service_name service_data;;
          print (TurnSuccessful CCW (dial_turn_service a)))
         (print (InvalidTurnFormat (dial_turn_service a)))
         (fun e => print (TurnError CCW (dial_turn_service a) (dial_entity_id a) e))
     else
       print (NoTurnService CCW));;
    mret Return
  else
    mret (SuperCall event data).

(** The four change handlers: take the new value from the widget, then
    save. *)
Definition _on_dial_entity_id_changed (entry_row : EntryRow) : M unit :=
  a ← get_self;
  set_self (mkDialAction (get_text entry_row) (dial_step_size a)
                         (dial_turn_service a) (dial_press_service a));;
  _save_dial_settings.

Definition _on_dial_step_size_changed (adjustment : Adjustment) : M unit :=
  a ← get_self;
  set_self (mkDialAction (dial_entity_id a) (python_int (get_value adjustment))
                         (dial_turn_service a) (dial_press_service a));;
  _save_dial_settings.

Definition _on_dial_turn_service_changed (entry_row : EntryRow) : M unit :=
  a ← get_self;
  set_self (mkDialAction (dial_entity_id a) (dial_step_size a)
                         (get_text entry_row) (dial_press_service a));;
  _save_dial_settings.

Definition _on_dial_press_service_changed (entry_row : EntryRow) : M unit :=
  a ← get_self;
  set_self (mkDialAction (dial_entity_id a) (dial_step_size a)
                         (dial_turn_service a) (get_text entry_row));;
  _save_dial_settings.

End Model.

Arguments mkRun {Backend A} effects final result.
Arguments effects {Backend A} r.
Arguments final {Backend A} r.
Arguments result {Backend A} r.
Arguments mkWorld {Backend} self settings backend.

(** ** Observations on a run *)

(** The outbound service calls of a run, in order: entity, service name,
    parameters. *)
Fixpoint calls (l : list Effect) : list (string * string * gmap string Value) :=
  match l with
  | [] => []
  | ECallService entity service parameters :: rest =>
      (entity, service, parameters) :: calls rest
  | _ :: rest => calls rest
  end.

(** The records written to the settings store, in order. *)
Fixpoint writes (l : list Effect) : list (gmap string Value) :=
  match l with
  | [] => []
  | ESetSettings m :: rest => m :: writes rest
  | _ :: rest => writes rest
  end.

(** The three events [event_callback] handles itself. *)
Definition handled (event : InputEvent) : bool :=
  match event with
  | DOWN | TURN_CW | TURN_CCW => true
  | OtherEvent _ => false
  end.

(** The service string an event is configured with: the press service
    for [DOWN], the turn service for both turns. *)
Definition configured_service (event : InputEvent) (a : DialAction) : string :=
  match event with
  | DOWN => dial_press_service a
  | _ => dial_turn_service a
  end.

(** The four fields of the configuration, and a change of one of them as
    the toolkit delivers it. *)
Inductive Field : Type :=
| F_entity_id
| F_step_size
| F_turn_service
| F_press_service.

Global Instance Field_eq_dec : EqDecision Field.
Proof. solve_decision. Defined.

Inductive FieldChange : Type :=
| EntityIdChanged (entry_row : EntryRow)
| StepSizeChanged (adjustment : Adjustment)
| TurnServiceChanged (entry_row : EntryRow)
| PressServiceChanged (entry_row : EntryRow).

Definition changed_field (c : FieldChange) : Field :=
  match c with
  | EntityIdChanged _ => F_entity_id
  | StepSizeChanged _ => F_step_size
  | TurnServiceChanged _ => F_turn_service
  | PressServiceChanged _ => F_press_service
  end.

Definition key_of (f : Field) : string :=
  match f with
  | F_entity_id => SETTING_DIAL_ENTITY_ID
  | F_step_size => SETTING_DIAL_STEP_SIZE
  | F_turn_service => SETTING_DIAL_TURN_SERVICE
  | F_press_service => SETTING_DIAL_PRESS_SERVICE
  end.

(** The value a field holds in memory. *)
Definition field_value (f : Field) (a : DialAction) : Value :=
  match f with
  | F_entity_id => VStr (dial_entity_id a)
  | F_step_size => VInt (dial_step_size a)
  | F_turn_service => VStr (dial_turn_service a)
  | F_press_service => VStr (dial_press_service a)
  end.

(** What the toolkit delivers with a change: the text of the entry row,
    or the number the adjustment holds. *)
Inductive Delivered : Type :=
| DText (text : string)
| DNumber (x : QArith_base.Q).

Definition delivered (c : FieldChange) : Delivered :=
  match c with
  | EntityIdChanged row | TurnServiceChanged row | PressServiceChanged row =>
      DText (get_text row)
  | StepSizeChanged adjustment => DNumber (get_value adjustment)
  end.

(** [n] is the number [x = p / q] without its fractional part:
    [|n| <= |x| < |n| + 1], and [n] is not of the sign opposite to [x]. *)
Definition truncates (x : QArith_base.Q) (n : Z) : Prop :=
  Z.abs n * Z.pos (QArith_base.Qden x) <= Z.abs (QArith_base.Qnum x) /\
  Z.abs (QArith_base.Qnum x) < (Z.abs n + 1) * Z.pos (QArith_base.Qden x) /\
  0 <= n * QArith_base.Qnum x.

(** A stored value stands for a delivered one: the same text, or the
    integer part of the number. *)
Definition written_as (d : Delivered) (stored : Value) : Prop :=
  match d, stored with
  | DText text, VStr s => s = text
  | DNumber x, VInt n => truncates x n
  | _, _ => False
  end.

(** The reaction to a change: the handler connected to that field's row. *)
Definition onFieldChanged {Backend : Type} (c : FieldChange) : @M Backend unit :=
  match c with
  | EntityIdChanged row => _on_dial_entity_id_changed row
  | StepSizeChanged adjustment => _on_dial_step_size_changed adjustment
  | TurnServiceChanged row => _on_dial_turn_service_changed row
  | PressServiceChanged row => _on_dial_press_service_changed row
  end.

(** The persisted copy of the configuration agrees with the copy in
    memory: each of the four keys holds the value of its field. *)
Definition persisted_agrees (m : gmap string Value) (a : DialAction) : Prop :=
  forall f : Field, m !! key_of f = Some (field_value f a).

(** ** Backends to run the model on *)

(** A backend whose calls all succeed; its state counts them. *)
Definition counting_backend (n : nat) (_ _ : string) (_ : gmap string Value)
    : nat * CallResult :=
  (S n, Returns).

(** A backend whose calls all raise the given exception. *)
Definition raising_backend (e : PyExc) (n : nat) (_ _ : string)
    (_ : gmap string Value) : nat * CallResult :=
  (S n, Raises e).

Definition ConnectionError : PyExc := mkExc KException "ConnectionError".

Definition living_room : DialAction :=
  {| dial_entity_id := "light.living_room";
     dial_step_size := 1;
     dial_turn_service := "";
     dial_press_service := "light.toggle" |}.

Definition office (step : Z) : DialAction :=
  {| dial_entity_id := "light.office";
     dial_step_size := step;
     dial_turn_service := "light.turn_on";
     dial_press_service := "" |}.

Definition unconfigured : DialAction :=
  {| dial_entity_id := "";
     dial_step_size := 10;
     dial_turn_service := "light.turn_on";
     dial_press_service := "light.toggle" |}.

Definition invalid_format : DialAction :=
  {| dial_entity_id := "light.office";
     dial_step_size := 10;
     dial_turn_service := "invalidserviceformat";
     dial_press_service := "" |}.

Definition trailing_dot : DialAction :=
  {| dial_entity_id := "light.kitchen";
     dial_step_size := 3;
     dial_turn_service := ".";
     dial_press_service := "light." |}.

Definition world_of (a : DialAction) : @World nat := mkWorld a ∅ 0%nat.


(** ** Further definitions for the properties below *)

(** ["."].join(parts): the inverse of the split. *)
Fixpoint join_dot (parts : list string) : string :=
  match parts with
  | [] => ""
  | p :: rest =>
      match rest with
      | [] => p
      | _ :: _ => p +:+ "." +:+ join_dot rest
      end
  end.

(** The dict [_save_dial_settings] builds from the attributes over the
    dict it read. *)
Definition saved_settings (a : DialAction) (m : gmap string Value)
    : gmap string Value :=
  <[SETTING_DIAL_PRESS_SERVICE := VStr (dial_press_service a)]>
    (<[SETTING_DIAL_TURN_SERVICE := VStr (dial_turn_service a)]>
       (<[SETTING_DIAL_STEP_SIZE := VInt (dial_step_size a)]>
          (<[SETTING_DIAL_ENTITY_ID := VStr (dial_entity_id a)]> m))).

(** The attributes after the assignment a change handler makes. *)
Definition assigned (c : FieldChange) (a : DialAction) : DialAction :=
  match c with
  | EntityIdChanged row =>
      mkDialAction (get_text row) (dial_step_size a)
                   (dial_turn_service a) (dial_press_service a)
  | StepSizeChanged adjustment =>
      mkDialAction (dial_entity_id a) (python_int (get_value adjustment))
                   (dial_turn_service a) (dial_press_service a)
  | TurnServiceChanged row =>
      mkDialAction (dial_entity_id a) (dial_step_size a)
                   (get_text row) (dial_press_service a)
  | PressServiceChanged row =>
      mkDialAction (dial_entity_id a) (dial_step_size a)
                   (dial_turn_service a) (get_text row)
  end.

(** The attributes after a series of such assignments. *)
Definition assigned_all (cs : list FieldChange) (a : DialAction) : DialAction :=
  fold_left (fun a c => assigned c a) cs a.

(** The attributes of an instance as a load would leave them. *)
Definition attributes_of (a : DialAction) : Loaded :=
  {| loaded_entity_id := VStr (dial_entity_id a);
     loaded_step_size := VInt (dial_step_size a);
     loaded_turn_service := VStr (dial_turn_service a);
     loaded_press_service := VStr (dial_press_service a) |}.

(** Loaded attributes whose values have the types of the annotations, as
    the instance they make. *)
Definition typed (l : Loaded) : option DialAction :=
  match l with
  | mkLoaded (VStr entity_id) (VInt step_size) (VStr turn_service)
             (VStr press_service) =>
      Some (mkDialAction entity_id step_size turn_service press_service)
  | _ => None
  end.

(** A value has the type the annotation of a field asks for, and a store
    holds such values under the four keys it has. *)
Definition has_type (f : Field) (v : Value) : Prop :=
  match f, v with
  | F_step_size, VInt _ => True
  | F_step_size, VStr _ => False
  | _, VStr _ => True
  | _, VInt _ => False
  end.

Definition well_typed_store (m : gmap string Value) : Prop :=
  forall f v, m !! key_of f = Some v -> has_type f v.

(** [__init__]: the default attributes, then [_load_dial_settings] over
    them from the settings the host holds for the action. The instance is
    given where the loaded values have the annotated types, which are the
    types the attributes of [World] have. *)
Definition __init__ {Backend : Type} (stored : gmap string Value)
    (b : Backend) : option (@World Backend) :=
  match typed (_load_dial_settings stored) with
  | Some a => Some (mkWorld a stored b)
  | None => None
  end.

(** The host delivering a series of changes: the handlers run one after
    the other. *)
Fixpoint onFieldsChanged {Backend : Type} (cs : list FieldChange)
    : @M Backend unit :=
  match cs with
  | [] => ret tt
  | c :: rest => bind (onFieldChanged c) (fun _ => onFieldsChanged rest)
  end.

(** An event delivered after a series of changes. *)
Definition changes_then_event {Backend Payload : Type}
    (bcs : Backend -> string -> string -> gmap string Value
           -> Backend * CallResult)
    (cs : list FieldChange) (event : InputEvent) (data : Payload)
    : @M Backend (Completion Payload) :=
  bind (onFieldsChanged cs) (fun _ => event_callback bcs event data).

(** The bounds [get_config_rows] gives the adjustment of the step size
    row ([lower=1, upper=100]), and a value within them. *)
Definition STEP_LOWER : Z := 1.
Definition STEP_UPPER : Z := 100.

Definition within_bounds (adjustment : Adjustment) : Prop :=
  QArith_base.Qle (QArith_base.inject_Z STEP_LOWER) (get_value adjustment) /\
  QArith_base.Qle (get_value adjustment) (QArith_base.inject_Z STEP_UPPER).

(** The parameters each dial event sends. *)
Definition parameters_of (event : InputEvent) (a : DialAction)
    : gmap string Value :=
  match event with
  | DOWN => {[ "entity_id" := VStr (dial_entity_id a) ]}
  | TURN_CW =>
      {[ "entity_id" := VStr (dial_entity_id a);
         "brightness_step_pct" := VInt (dial_step_size a) ]}
  | _ =>
      {[ "entity_id" := VStr (dial_entity_id a);
         "brightness_step_pct" := VInt (- dial_step_size a) ]}
  end.

(** The line printed when the split of the configured service fails. *)
Definition invalid_format_notice (event : InputEvent) (a : DialAction)
    : Notice :=
  match event with
  | DOWN => InvalidPressFormat (dial_press_service a)
  | _ => InvalidTurnFormat (dial_turn_service a)
  end.

(** ** Facts about splitting *)

Lemma truthy_nonempty (s : string) : s <> "" -> truthy s = true.
Proof. destruct s; [congruence | reflexivity]. Qed.

Lemma contains_dot_truthy (s : string) : contains_dot s = true -> truthy s = true.
Proof. destruct s; [discriminate | reflexivity]. Qed.

Lemma partition_dot_none (s : string) :
  contains_dot s = false -> partition_dot s = None.
Proof.
  induction s as [| c rest IH]; simpl; [reflexivity |].
  destruct (Ascii.eqb c "."); simpl; [discriminate |].
  intros H. rewrite (IH H). reflexivity.
Qed.

Lemma partition_dot_some (s : string) :
  contains_dot s = true ->
  exists before after,
    partition_dot s = Some (before, after) /\
    contains_dot before = false /\
    s = before +:+ "." +:+ after.
Proof.
  induction s as [| c rest IH]; simpl; [discriminate |].
  destruct (Ascii.eqb_spec c ".") as [-> | Hc]; simpl.
  - intros _. exists "", rest. repeat split.
  - intros H. destruct (IH H) as (before & after & Hp & Hb & Hs).
    exists (String c before), after. rewrite Hp. simpl.
    destruct (Ascii.eqb_spec c "."); [contradiction |]. simpl.
    repeat split; [assumption |].
    change (String c rest = String c (before +:+ "." +:+ after)).
    now rewrite <- Hs.
Qed.

Lemma substring_all (s : string) : String.substring 0 (String.length s) s = s.
Proof. induction s; simpl; congruence. Qed.

Lemma prefix_empty (s : string) : String.prefix "" s = true.
Proof. destruct s; reflexivity. Qed.

Lemma index_dot_cons (c : ascii) (rest : string) :
  String.index 0 "." (String c rest) =
  if Ascii.eqb c "."%char then Some 0%nat
  else match String.index 0 "." rest with
       | Some n => Some (S n)
       | None => None
       end.
Proof.
  change (String.index 0 "." (String c rest))
    with (if String.prefix "." (String c rest) then Some 0%nat
          else match String.index 0 "." rest with
               | Some n => Some (S n)
               | None => None
               end).
  change (String.prefix "." (String c rest))
    with (if Ascii.ascii_dec "." c then String.prefix "" rest else false).
  destruct (Ascii.ascii_dec "." c) as [<- | Hne].
  - now rewrite prefix_empty.
  - destruct (Ascii.eqb_spec c "."); [congruence | reflexivity].
Qed.

(** The second part of the split is the text after the first dot. *)
Lemma partition_dot_after (s before after : string) :
  partition_dot s = Some (before, after) -> after_first_dot s = Some after.
Proof.
  unfold after_first_dot. revert before.
  induction s as [| c rest IH]; intros before; [discriminate |].
  rewrite index_dot_cons.
  change (partition_dot (String c rest))
    with (if Ascii.eqb c "."%char then Some (EmptyString, rest)
          else match partition_dot rest with
               | Some (before, after) => Some (String c before, after)
               | None => None
               end).
  destruct (Ascii.eqb c ".").
  - intros [= <- <-]. simpl. now rewrite Nat.sub_0_r, substring_all.
  - destruct (partition_dot rest) as [[b a] |] eqn:Hp; [| discriminate].
    intros [= <- <-]. specialize (IH b eq_refl).
    destruct (String.index 0 "." rest) as [n |]; [| discriminate].
    injection IH as IH. simpl. now rewrite IH.
Qed.

Lemma partition_dot_app (before after : string) :
  contains_dot before = false ->
  partition_dot (before +:+ "." +:+ after) = Some (before, after).
Proof.
  induction before as [| c rest IH]; simpl; [reflexivity |].
  destruct (Ascii.eqb c "."); simpl; [discriminate |].
  intros H. now rewrite (IH H).
Qed.

Lemma partition_dot_contains (s : string) (parts : string * string) :
  partition_dot s = Some parts -> contains_dot s = true.
Proof.
  intros Hp. destruct (contains_dot s) eqn:Hd; [reflexivity |].
  rewrite (partition_dot_none _ Hd) in Hp. discriminate.
Qed.

Lemma unpack_split_some (s domain name : string) :
  partition_dot s = Some (domain, name) ->
  unpack2 (split_dot_1 s) = inr (domain, name).
Proof. unfold split_dot_1. now intros ->. Qed.

Lemma unpack_split_none (s : string) :
  partition_dot s = None ->
  unpack2 (split_dot_1 s) =
  inl (mkExc KValueError "not enough values to unpack (expected 2)").
Proof. unfold split_dot_1. now intros ->. Qed.

Lemma python_int_integral (z : Z) :
  python_int (QArith_base.inject_Z z) = z.
Proof. unfold python_int. simpl. apply Z.quot_1_r. Qed.

Lemma service_data_turn (entity : string) (step : Z) :
  <[ "brightness_step_pct" := VInt step ]> {[ "entity_id" := VStr entity ]}
  = ({[ "entity_id" := VStr entity;
        "brightness_step_pct" := VInt step ]} : gmap string Value).
Proof.
  rewrite <- !insert_empty. apply insert_insert_ne. discriminate.
Qed.

Lemma python_int_truncates (x : QArith_base.Q) : truncates x (python_int x).
Proof.
  destruct x as [p q]. unfold truncates, python_int. cbn.
  assert (Hq : 0 < Z.pos q) by lia.
  rewrite <- (Z.abs_eq (Z.pos q)) at 1 3 by lia.
  rewrite <- Z.quot_abs by lia.
  rewrite Z.quot_div_nonneg by lia.
  rewrite (Z.abs_eq (Z.pos q)) by lia.
  split_and!.
  - rewrite Z.mul_comm. apply Z.mul_div_le. lia.
  - rewrite Z.mul_comm. apply Z.mul_succ_div_gt. lia.
  - destruct (Z.le_gt_cases 0 p) as [Hp | Hp].
    + apply Z.mul_nonneg_nonneg; [apply Z.quot_pos; lia | exact Hp].
    + apply Z.mul_nonpos_nonpos; [| lia].
      replace p with (- (- p)) by lia. rewrite Z.quot_opp_l by lia.
      assert (0 <= Z.quot (- p) (Z.pos q)) by (apply Z.quot_pos; lia). lia.
Qed.

Lemma python_int_of_integer (x : QArith_base.Q) (z : Z) :
  QArith_base.Qeq x (QArith_base.inject_Z z) -> python_int x = z.
Proof.
  destruct x as [p q]. unfold QArith_base.Qeq, python_int. cbn.
  intros H. replace p with (z * Z.pos q) by lia.
  apply Z.quot_mul. lia.
Qed.

(** ** Properties of [event_callback] *)

Section Properties.

Context {Backend Payload : Type}.
Variable bcs :
  Backend -> string -> string -> gmap string Value -> Backend * CallResult.

(** Unfolds the monad of the methods down to the effects of each step. *)
Ltac run_monad :=
  cbv beta iota zeta delta
    [mbind mret M_bind M_ret bind ret raise lift try_except print get_self
     set_self get_settings set_settings call_service
     result effects final self settings backend
     dial_entity_id dial_step_size dial_turn_service dial_press_service
     negb];
  cbn [app].

(** Settles the comparisons of a known event with the three dial events. *)
Ltac decide_events :=
  repeat match goal with
  | |- context [decide (?x = ?y)] =>
      first [ rewrite (decide_True (P := x = y)) by reflexivity
            | rewrite (decide_False (P := x = y)) by discriminate ]
  end.

(** Names the attributes of the state and opens [event_callback]. *)
Ltac open_event w :=
  destruct w as [[entity step turn press] st b];
  cbn [self settings backend dial_entity_id dial_step_size
       dial_turn_service dial_press_service configured_service] in *;
  unfold event_callback; run_monad; decide_events.

(** C4. With an empty entity id, no event of any kind leads to a service
    call, whatever the step size and the two service strings are: the
    callback prints its notice and returns, the state as it was. *)
Theorem no_entity_no_call (event : InputEvent) (data : Payload) (w : World) :
  dial_entity_id (self w) = "" ->
  calls (effects (event_callback bcs event data w)) = [] /\
  result (event_callback bcs event data w) = inr Return /\
  final (event_callback bcs event data w) = w.
Proof.
  intros He. open_event w. subst entity. cbn. auto.
Qed.



(** Cases on what the backend answers to the one call in the goal, and on
    the class of what it raises. *)
Ltac backend_cases :=
  match goal with
  | |- context [bcs ?b ?entity ?service ?parameters] =>
      let b' := fresh "b'" in
      let e := fresh "e" in
      destruct (bcs b entity service parameters) as [b' [| e]] eqn:?;
      run_monad;
      [| destruct e as [[| |] text];
         cbn [isinstance_ValueError isinstance_Exception exc_kind];
         run_monad ]
  end.


(** C3. With a non-empty entity id and a press service that contains a
    dot, a press calls the service exactly once: on the entity, under the
    name that follows the first dot, with the entity id as only parameter.
    For "light.living_room" and "light.toggle" the one call is
    [("light.living_room", "toggle", {"entity_id": "light.living_room"})]. *)
Theorem press_calls_once (data : Payload) (w : World) :
  dial_entity_id (self w) <> "" ->
  contains_dot (dial_press_service (self w)) = true ->
  (exists service_name,
     after_first_dot (dial_press_service (self w)) = Some service_name /\
     calls (effects (event_callback bcs DOWN data w)) =
       [(dial_entity_id (self w), service_name,
         {[ "entity_id" := VStr (dial_entity_id (self w)) ]})]) /\
  (dial_entity_id (self w) = "light.living_room" ->
   dial_press_service (self w) = "light.toggle" ->
   calls (effects (event_callback bcs DOWN data w)) =
     [("light.living_room", "toggle",
       {[ "entity_id" := VStr "light.living_room" ]})]).
Proof.
  intros He Hd.
  destruct (partition_dot_some _ Hd) as (domain & name & Hp & _ & _).
  pose proof (contains_dot_truthy _ Hd) as Ht.
  assert (Hcalls : calls (effects (event_callback bcs DOWN data w)) =
                   [(dial_entity_id (self w), name,
                     {[ "entity_id" := VStr (dial_entity_id (self w)) ]})]).
  { open_event w.
    rewrite (truthy_nonempty _ He), Ht, (unpack_split_some _ _ _ Hp).
    run_monad. backend_cases; reflexivity. }
  split.
  - exists name. split; [exact (partition_dot_after _ _ _ Hp) | exact Hcalls].
  - intros Hent Hpress. rewrite Hcalls, Hent.
    rewrite Hpress in Hp. cbn in Hp. now injection Hp as _ <-.
Qed.

(** C5, amended. With a non-empty entity id, an event that is none of
    the three dial events is handed to the handler of the base class, the
    event and its payload as they came, with nothing printed, called or
    changed before. *)
Theorem other_event_delegated (event : InputEvent) (data : Payload) (w : World) :
  dial_entity_id (self w) <> "" ->
  handled event = false ->
  event_callback bcs event data w = mkRun [] w (inr (SuperCall event data)).
Proof.
  intros He Hh. destruct event; try discriminate.
  open_event w. now rewrite (truthy_nonempty _ He).
Qed.

(** C6. With a non-empty entity id and a configured service string
    without a dot, none of the three dial events leads to a service call,
    and the callback returns without raising, the state as it was. *)
Theorem malformed_service_no_call (event : InputEvent) (data : Payload)
    (w : World) :
  dial_entity_id (self w) <> "" ->
  handled event = true ->
  contains_dot (configured_service event (self w)) = false ->
  calls (effects (event_callback bcs event data w)) = [] /\
  result (event_callback bcs event data w) = inr Return /\
  final (event_callback bcs event data w) = w.
Proof.
  intros He Hh Hd. pose proof (partition_dot_none _ Hd) as Hp.
  destruct event; try discriminate; open_event w;
    rewrite (truthy_nonempty _ He), (unpack_split_none _ Hp); run_monad.
  - destruct (truthy press); run_monad; auto.
  - destruct (truthy turn); run_monad; auto.
  - destruct (truthy turn); run_monad; auto.
Qed.

(** Cases on the split of a service string. *)
Ltac split_cases s :=
  let Hp := fresh "Hp" in
  destruct (partition_dot s) as [[? ?] |] eqn:Hp;
  [ rewrite (unpack_split_some _ _ _ Hp)
  | rewrite (unpack_split_none _ Hp) ];
  run_monad.

(** Every path through [event_callback]: the event, the entity id, the
    service string and its split, the answer of the backend. *)
Ltac event_paths w event :=
  destruct event; open_event w;
  repeat match goal with
  | |- context [truthy ?s] => destruct (truthy s) eqn:?; run_monad
  | |- context [unpack2 (split_dot_1 ?s)] => split_cases s
  end;
  try backend_cases.

(** C8. One run of [event_callback] makes at most one service call, on
    every path, writes nothing to the settings store, and leaves the four
    attributes and the stored settings as they were. *)
Theorem event_at_most_one_call (event : InputEvent) (data : Payload)
    (w : World) :
  (length (calls (effects (event_callback bcs event data w))) <= 1)%nat /\
  writes (effects (event_callback bcs event data w)) = [] /\
  self (final (event_callback bcs event data w)) = self w /\
  settings (final (event_callback bcs event data w)) = settings w.
Proof.
  event_paths w event; cbn; auto.
Qed.


(** C10. The guard against a malformed service string only looks for a
    dot. With a non-empty entity id and a configured service that ends at
    its first dot (as "light." or "." do), each of the three dial events
    does call the service, under the empty name. *)
Theorem empty_suffix_still_called (event : InputEvent) (data : Payload)
    (w : World) (domain : string) :
  dial_entity_id (self w) <> "" ->
  handled event = true ->
  contains_dot domain = false ->
  configured_service event (self w) = domain +:+ "." ->
  contains_dot (configured_service event (self w)) = true /\
  after_first_dot (configured_service event (self w)) = Some "" /\
  exists parameters,
    calls (effects (event_callback bcs event data w)) =
      [(dial_entity_id (self w), "", parameters)].
Proof.
  intros He Hh Hd Hs.
  pose proof (partition_dot_app domain "" Hd) as Hp.
  change (domain +:+ "." +:+ "") with (domain +:+ ".") in Hp.
  rewrite <- Hs in Hp.
  pose proof (partition_dot_contains _ _ Hp) as Hc.
  split_and!; [exact Hc | exact (partition_dot_after _ _ _ Hp) |].
  pose proof (contains_dot_truthy _ Hc) as Ht.
  destruct event; try discriminate; open_event w;
    rewrite (truthy_nonempty _ He), Ht, (unpack_split_some _ _ _ Hp);
    run_monad; eexists; backend_cases; reflexivity.
Qed.

(** Looks a settings key up in the dict [_save_dial_settings] builds. *)
Ltac lookup_saved :=
  unfold key_of, SETTING_DIAL_ENTITY_ID, SETTING_DIAL_STEP_SIZE,
    SETTING_DIAL_TURN_SERVICE, SETTING_DIAL_PRESS_SERVICE in *;
  repeat first [ rewrite lookup_insert_eq
               | rewrite lookup_insert_ne by congruence ];
  try reflexivity.

(** C9, amended. Each reaction to a changed field writes the settings
    exactly once before it returns. The record written holds, under the
    key of that field, the text delivered or, for the step size, the
    delivered number without its fractional part (the number itself when
    it is an integer), and the former values of the other three fields
    under theirs (every other key of the store is kept); it is what the
    store then holds, and it agrees with the attributes in memory. *)
Theorem field_change_written_through (c : FieldChange) (w : World (Backend := Backend)) :
  result (onFieldChanged c w) = inr tt /\
  exists record,
    writes (effects (onFieldChanged c w)) = [record] /\
    (exists stored,
       record !! key_of (changed_field c) = Some stored /\
       written_as (delivered c) stored /\
       field_value (changed_field c) (self (final (onFieldChanged c w))) =
         stored) /\
    (forall x z,
       delivered c = DNumber x ->
       QArith_base.Qeq x (QArith_base.inject_Z z) ->
       record !! key_of (changed_field c) = Some (VInt z)) /\
    (forall f, f <> changed_field c ->
       record !! key_of f = Some (field_value f (self w))) /\
    (forall key, (forall f, key <> key_of f) ->
       record !! key = settings w !! key) /\
    settings (final (onFieldChanged c w)) = record /\
    persisted_agrees (settings (final (onFieldChanged c w)))
                     (self (final (onFieldChanged c w))).
Proof.
  destruct w as [[entity step turn press] st b].
  destruct c as [row | adjustment | row | row];
    unfold onFieldChanged, _on_dial_entity_id_changed,
      _on_dial_step_size_changed, _on_dial_turn_service_changed,
      _on_dial_press_service_changed, _save_dial_settings;
    run_monad; (split; [reflexivity |]); eexists;
    (split_and!;
     [ reflexivity
     | eexists; split_and!;
       [ cbn [changed_field]; lookup_saved
       | cbn [delivered written_as];
         first [ reflexivity | apply python_int_truncates ]
       | reflexivity ]
     | intros x z Hd Hq; cbn [delivered] in Hd;
       first [ discriminate Hd
             | injection Hd as <-; cbn [changed_field]; lookup_saved;
               now rewrite (python_int_of_integer _ _ Hq) ]
     | intros f Hf; destruct f; cbn [changed_field field_value] in *;
       try congruence; lookup_saved
     | intros key Hk;
       pose proof (Hk F_entity_id); pose proof (Hk F_step_size);
       pose proof (Hk F_turn_service); pose proof (Hk F_press_service);
       lookup_saved
     | reflexivity
     | intros f; destruct f; cbn [field_value]; lookup_saved ]).
Qed.

End Properties.

(** ** Loading what was saved *)

(** With no settings stored, loading gives the defaults of [__init__]. *)
Lemma load_defaults : _load_dial_settings ∅ = attributes_of init_attributes.
Proof. reflexivity. Qed.

(** Loading a store that agrees with the attributes gives them back. *)
Lemma load_agrees (m : gmap string Value) (a : DialAction) :
  persisted_agrees m a -> _load_dial_settings m = attributes_of a.
Proof.
  intros H.
  pose proof (H F_entity_id) as H1. pose proof (H F_step_size) as H2.
  pose proof (H F_turn_service) as H3. pose proof (H F_press_service) as H4.
  cbn [key_of field_value] in H1, H2, H3, H4.
  unfold _load_dial_settings, dict_get.
  rewrite H1, H2, H3, H4. reflexivity.
Qed.

Lemma typed_attributes_of (a : DialAction) : typed (attributes_of a) = Some a.
Proof. destruct a. reflexivity. Qed.

(** ** The properties on the configurations of the test suite *)


(** The clockwise test of the suite: step 10 on "light.office". *)
Example turn_clockwise_office :
  calls (effects (event_callback counting_backend TURN_CW
                    (∅ : gmap string Value) (world_of (office 10)))) =
    [("light.office", "turn_on",
      {[ "entity_id" := VStr "light.office";
         "brightness_step_pct" := VInt 10 ]})].
Proof. vm_compute. reflexivity. Qed.


(** The counter-clockwise test of the suite: step 5 is sent as -5. *)
Example turn_counterclockwise_office :
  calls (effects (event_callback counting_backend TURN_CCW
                    (∅ : gmap string Value) (world_of (office 5)))) =
    [("light.office", "turn_on",
      {[ "entity_id" := VStr "light.office";
         "brightness_step_pct" := VInt (-5) ]})].
Proof. vm_compute. reflexivity. Qed.

Lemma press_calls_once_witness :
  dial_entity_id (self (world_of living_room)) <> "" /\
  contains_dot (dial_press_service (self (world_of living_room))) = true /\
  calls (effects (event_callback counting_backend DOWN
                    (∅ : gmap string Value) (world_of living_room))) =
    [("light.living_room", "toggle",
      {[ "entity_id" := VStr "light.living_room" ]})].
Proof.
  split; [discriminate |]. split; [reflexivity |].
  apply (press_calls_once counting_backend ∅ (world_of living_room));
    [discriminate | reflexivity | reflexivity | reflexivity].
Defined.

Lemma no_entity_no_call_witness :
  dial_entity_id (self (world_of unconfigured)) = "" /\
  calls (effects (event_callback counting_backend TURN_CW
                    (∅ : gmap string Value) (world_of unconfigured))) = [] /\
  result (event_callback counting_backend TURN_CW
            (∅ : gmap string Value) (world_of unconfigured)) = inr Return /\
  final (event_callback counting_backend TURN_CW
           (∅ : gmap string Value) (world_of unconfigured)) =
    world_of unconfigured.
Proof.
  split; [reflexivity |].
  apply (no_entity_no_call counting_backend TURN_CW ∅ (world_of unconfigured)).
  reflexivity.
Defined.

(** C5, as stated, fails: with an empty entity id an event that is none
    of the three dial events is not handed to the base class handler; the
    callback prints its notice and returns. *)
Lemma other_event_dropped_without_entity :
  handled (OtherEvent "UP") = false /\
  event_callback counting_backend (OtherEvent "UP") (∅ : gmap string Value)
                 (world_of unconfigured) =
    mkRun [EPrint NoEntityId] (world_of unconfigured) (inr Return) /\
  result (event_callback counting_backend (OtherEvent "UP")
            (∅ : gmap string Value) (world_of unconfigured)) <>
    inr (SuperCall (OtherEvent "UP") ∅).
Proof.
  split; [reflexivity |]. split; [reflexivity |]. discriminate.
Qed.

Lemma other_event_delegated_witness :
  dial_entity_id (self (world_of living_room)) <> "" /\
  handled (OtherEvent "UP") = false /\
  event_callback counting_backend (OtherEvent "UP") (∅ : gmap string Value)
                 (world_of living_room) =
    mkRun [] (world_of living_room) (inr (SuperCall (OtherEvent "UP") ∅)).
Proof.
  split; [discriminate |]. split; [reflexivity |].
  apply (other_event_delegated counting_backend (OtherEvent "UP") ∅
           (world_of living_room)); [discriminate | reflexivity].
Defined.

Lemma malformed_service_no_call_witness :
  dial_entity_id (self (world_of invalid_format)) <> "" /\
  handled TURN_CW = true /\
  contains_dot (configured_service TURN_CW (self (world_of invalid_format)))
    = false /\
  calls (effects (event_callback counting_backend TURN_CW
                    (∅ : gmap string Value) (world_of invalid_format))) = [] /\
  result (event_callback counting_backend TURN_CW
            (∅ : gmap string Value) (world_of invalid_format)) = inr Return /\
  final (event_callback counting_backend TURN_CW
           (∅ : gmap string Value) (world_of invalid_format)) =
    world_of invalid_format.
Proof.
  split; [discriminate |]. split; [reflexivity |]. split; [reflexivity |].
  apply (malformed_service_no_call counting_backend TURN_CW ∅
           (world_of invalid_format));
    [discriminate | reflexivity | reflexivity].
Defined.



(** A failing call is followed by the error line alone. *)
Example connection_error_logged :
  event_callback (raising_backend ConnectionError) TURN_CW
    (∅ : gmap string Value) (world_of (office 10)) =
  mkRun
    [EPrint (CallingTurn CW "turn_on" "light.office"
               (<[ "brightness_step_pct" := VInt 10 ]>
                  {[ "entity_id" := VStr "light.office" ]}));
     ECallService "light.office" "turn_on"
       (<[ "brightness_step_pct" := VInt 10 ]>
          {[ "entity_id" := VStr "light.office" ]});
     EPrint (TurnError CW "light.turn_on" "light.office" ConnectionError)]
    (mkWorld (office 10) ∅ 1%nat)
    (inr Return).
Proof. vm_compute. reflexivity. Qed.

Lemma empty_suffix_still_called_witness :
  dial_entity_id (self (world_of trailing_dot)) <> "" /\
  handled DOWN = true /\
  contains_dot "light" = false /\
  configured_service DOWN (self (world_of trailing_dot)) = "light" +:+ "." /\
  contains_dot (configured_service DOWN (self (world_of trailing_dot)))
    = true /\
  after_first_dot (configured_service DOWN (self (world_of trailing_dot)))
    = Some "" /\
  exists parameters,
    calls (effects (event_callback counting_backend DOWN
                      (∅ : gmap string Value) (world_of trailing_dot))) =
      [(dial_entity_id (self (world_of trailing_dot)), "", parameters)].
Proof.
  split; [discriminate |]. split; [reflexivity |].
  split; [reflexivity |]. split; [reflexivity |].
  apply (empty_suffix_still_called counting_backend DOWN
           (∅ : gmap string Value) (world_of trailing_dot) "light");
    [discriminate | reflexivity | reflexivity | reflexivity].
Defined.

(** The same on the bare dot, on a turn. *)
Example bare_dot_still_called :
  calls (effects (event_callback counting_backend TURN_CCW
                    (∅ : gmap string Value) (world_of trailing_dot))) =
    [("light.kitchen", "",
      {[ "entity_id" := VStr "light.kitchen";
         "brightness_step_pct" := VInt (-3) ]})].
Proof. vm_compute. reflexivity. Qed.

(** A step size changed to 7 on the defaults: one write, of all four keys. *)
Example step_size_change_written :
  onFieldChanged (StepSizeChanged (mkAdjustment (QArith_base.inject_Z 7)))
                 (world_of init_attributes) =
  mkRun
    [ESetSettings {[ "dial_entity_id" := VStr "";
                     "dial_step_size" := VInt 7;
                     "dial_turn_service" := VStr "";
                     "dial_press_service" := VStr "" ]}]
    (mkWorld (mkDialAction "" 7 "" "")
             {[ "dial_entity_id" := VStr "";
                "dial_step_size" := VInt 7;
                "dial_turn_service" := VStr "";
                "dial_press_service" := VStr "" ]}
             0%nat)
    (inr tt).
Proof. vm_compute. reflexivity. Qed.

Lemma field_change_written_through_witness :
  result (onFieldChanged
            (StepSizeChanged (mkAdjustment (QArith_base.Qmake 5 2)))
            (world_of living_room)) = inr tt /\
  exists record,
    writes (effects (onFieldChanged
                       (StepSizeChanged (mkAdjustment (QArith_base.Qmake 5 2)))
                       (world_of living_room))) = [record] /\
    exists stored,
      record !! "dial_step_size" = Some stored /\
      written_as (DNumber (QArith_base.Qmake 5 2)) stored.
Proof.
  destruct (field_change_written_through
              (StepSizeChanged (mkAdjustment (QArith_base.Qmake 5 2)))
              (world_of living_room))
    as (Hr & record & Hw & (stored & Hs & Ht & _) & _).
  split; [exact Hr |]. exists record. split; [exact Hw |].
  exists stored. split; [exact Hs | exact Ht].
Defined.

(** C9, as stated, fails for the step size: the number the adjustment
    delivers is written through [int], so a delivered 5/2 is written, and
    kept in memory, as 2, which is not the delivered value. *)
Lemma step_size_written_truncated :
  exists record,
    writes (effects (onFieldChanged
                       (StepSizeChanged (mkAdjustment (QArith_base.Qmake 5 2)))
                       (world_of living_room))) = [record] /\
    record !! "dial_step_size" = Some (VInt 2) /\
    dial_step_size (self (final (onFieldChanged
                       (StepSizeChanged (mkAdjustment (QArith_base.Qmake 5 2)))
                       (world_of living_room)))) = 2 /\
    ~ QArith_base.Qeq (QArith_base.inject_Z 2)
                      (get_value (mkAdjustment (QArith_base.Qmake 5 2))).
Proof.
  eexists. split; [reflexivity |]. split; [reflexivity |].
  split; [reflexivity |]. intros H. discriminate H.
Qed.

(** ** The split, both ways *)

Lemma partition_dot_joins (s before after : string) :
  partition_dot s = Some (before, after) ->
  contains_dot before = false /\ s = before +:+ "." +:+ after.
Proof.
  intros Hp.
  destruct (partition_dot_some s (partition_dot_contains _ _ Hp))
    as (b & a & Hp' & Hb & Hs).
  rewrite Hp in Hp'. injection Hp' as -> ->. auto.
Qed.

Lemma index_dot_none (s : string) :
  contains_dot s = false -> String.index 0 "." s = None.
Proof.
  induction s as [| c rest IH]; [reflexivity |].
  rewrite index_dot_cons. simpl.
  destruct (Ascii.eqb c "."); simpl; [discriminate |].
  intros H. now rewrite (IH H).
Qed.

Lemma after_first_dot_partition (s name : string) :
  after_first_dot s = Some name ->
  exists domain, partition_dot s = Some (domain, name).
Proof.
  intros Ha. destruct (contains_dot s) eqn:Hd.
  - destruct (partition_dot_some s Hd) as (b & a & Hp & _ & _).
    rewrite (partition_dot_after _ _ _ Hp) in Ha. injection Ha as <-.
    now exists b.
  - unfold after_first_dot in Ha. rewrite (index_dot_none _ Hd) in Ha.
    discriminate.
Qed.

(** X1. Joining the parts of [s.split('.', 1)] with a dot gives [s] back,
    for every string, with or without a dot. *)
Theorem split_join_roundtrip (s : string) : join_dot (split_dot_1 s) = s.
Proof.
  unfold split_dot_1.
  destruct (partition_dot s) as [[before after] |] eqn:Hp; [| reflexivity].
  destruct (partition_dot_joins _ _ _ Hp) as [_ ->]. reflexivity.
Qed.

(** X2. The unpacking of the split into a domain and a service name
    gives exactly the pair whose domain has no dot and that, joined by a
    dot, is the string; so the domain is the text before the first dot and
    nothing of the string is lost. *)
Theorem unpack_split_characterised (s domain name : string) :
  unpack2 (split_dot_1 s) = inr (domain, name) <->
  contains_dot domain = false /\ s = domain +:+ "." +:+ name.
Proof.
  split.
  - unfold split_dot_1.
    destruct (partition_dot s) as [[before after] |] eqn:Hp; [| discriminate].
    intros [= <- <-]. exact (partition_dot_joins _ _ _ Hp).
  - intros [Hd ->]. apply unpack_split_some. now apply partition_dot_app.
Qed.

(** X3. The unpacking fails exactly on the strings without a dot, and
    then with a [ValueError]; a split never has more than two parts. *)
Theorem unpack_split_fails_without_dot (s : string) :
  (contains_dot s = false <->
   exists e, unpack2 (split_dot_1 s) = inl e /\ isinstance_ValueError e = true) /\
  (length (split_dot_1 s) <= 2)%nat.
Proof.
  split; [split |].
  - intros Hd. rewrite (unpack_split_none _ (partition_dot_none _ Hd)).
    eexists. split; reflexivity.
  - intros (e & He & _). destruct (contains_dot s) eqn:Hd; [| reflexivity].
    destruct (partition_dot_some s Hd) as (b & a & Hp & _ & _).
    rewrite (unpack_split_some _ _ _ Hp) in He. discriminate.
  - unfold split_dot_1. destruct (partition_dot s) as [[? ?] |]; simpl; lia.
Qed.

(** ** Further properties of [event_callback] *)

Section EventProperties.

Context {Backend Payload : Type}.
Variable bcs :
  Backend -> string -> string -> gmap string Value -> Backend * CallResult.

Ltac run_monad :=
  cbv beta iota zeta delta
    [mbind mret M_bind M_ret bind ret raise lift try_except print get_self
     set_self get_settings set_settings call_service
     result effects final self settings backend
     dial_entity_id dial_step_size dial_turn_service dial_press_service
     negb];
  cbn [app].

Ltac decide_events :=
  repeat match goal with
  | |- context [decide (?x = ?y)] =>
      first [ rewrite (decide_True (P := x = y)) by reflexivity
            | rewrite (decide_False (P := x = y)) by discriminate ]
  end.

Ltac open_event w :=
  destruct w as [[entity step turn press] st b];
  cbn [self settings backend dial_entity_id dial_step_size
       dial_turn_service dial_press_service configured_service
       parameters_of invalid_format_notice] in *;
  unfold event_callback; run_monad; decide_events.

Ltac backend_cases :=
  match goal with
  | |- context [bcs ?b ?entity ?service ?parameters] =>
      let b' := fresh "b'" in
      let e := fresh "e" in
      destruct (bcs b entity service parameters) as [b' [| e]] eqn:?;
      run_monad;
      [| destruct e as [[| |] text];
         cbn [isinstance_ValueError isinstance_Exception exc_kind];
         run_monad ]
  end.

Ltac split_cases s :=
  let Hp := fresh "Hp" in
  destruct (partition_dot s) as [[? ?] |] eqn:Hp;
  [ rewrite (unpack_split_some _ _ _ Hp)
  | rewrite (unpack_split_none _ Hp) ];
  run_monad.

Ltac event_paths w event :=
  destruct event; open_event w;
  repeat match goal with
  | |- context [truthy ?s] => destruct (truthy s) eqn:?; run_monad
  | |- context [unpack2 (split_dot_1 ?s)] => split_cases s
  end;
  try backend_cases.

(** The one call of a dial event whose configured service splits. *)
Lemma event_calls_of_split (event : InputEvent) (data : Payload) (w : World)
    (domain name : string) :
  dial_entity_id (self w) <> "" ->
  handled event = true ->
  partition_dot (configured_service event (self w)) = Some (domain, name) ->
  calls (effects (event_callback bcs event data w)) =
    [(dial_entity_id (self w), name, parameters_of event (self w))].
Proof.
  intros He Hh Hp.
  pose proof (contains_dot_truthy _ (partition_dot_contains _ _ Hp)) as Ht.
  destruct event; try discriminate; open_event w;
    rewrite (truthy_nonempty _ He), Ht, (unpack_split_some _ _ _ Hp);
    rewrite ?service_data_turn; run_monad; backend_cases; reflexivity.
Qed.


(** X5. The domain of the configured service plays no part in the call:
    two configurations that differ only in the text before the first dot
    of that service lead a dial event to the same call. *)
Theorem call_ignores_domain (event : InputEvent) (data : Payload)
    (w1 w2 : World) (name : string) :
  handled event = true ->
  dial_entity_id (self w1) <> "" ->
  dial_entity_id (self w2) = dial_entity_id (self w1) ->
  dial_step_size (self w2) = dial_step_size (self w1) ->
  after_first_dot (configured_service event (self w1)) = Some name ->
  after_first_dot (configured_service event (self w2)) = Some name ->
  calls (effects (event_callback bcs event data w2)) =
  calls (effects (event_callback bcs event data w1)).
Proof.
  intros Hh He Hent Hstep H1 H2.
  destruct (after_first_dot_partition _ _ H1) as [d1 Hp1].
  destruct (after_first_dot_partition _ _ H2) as [d2 Hp2].
  rewrite (event_calls_of_split event data w1 d1 name He Hh Hp1).
  rewrite (event_calls_of_split event data w2 d2 name) by congruence.
  rewrite Hent. f_equal. f_equal.
  destruct event; try discriminate; unfold parameters_of;
    now rewrite Hent, ?Hstep.
Qed.


(** X7. A dial event reads the entity id, the service configured for it
    and, for a turn, the step size, and nothing else: not the other
    service, not the step size on a press, not the stored settings. Two
    states that agree on what is read give the same effects, the same
    outcome and the same backend. *)
Theorem event_reads_only_its_fields (event : InputEvent) (data : Payload)
    (a1 a2 : DialAction) (st1 st2 : gmap string Value) (b : Backend) :
  handled event = true ->
  dial_entity_id a1 = dial_entity_id a2 ->
  configured_service event a1 = configured_service event a2 ->
  (event <> DOWN -> dial_step_size a1 = dial_step_size a2) ->
  effects (event_callback bcs event data (mkWorld a1 st1 b)) =
    effects (event_callback bcs event data (mkWorld a2 st2 b)) /\
  result (event_callback bcs event data (mkWorld a1 st1 b)) =
    result (event_callback bcs event data (mkWorld a2 st2 b)) /\
  backend (final (event_callback bcs event data (mkWorld a1 st1 b))) =
    backend (final (event_callback bcs event data (mkWorld a2 st2 b))).
Proof.
  intros Hh He Hs Hstep.
  destruct a1 as [entity1 step1 turn1 press1].
  destruct a2 as [entity2 step2 turn2 press2].
  destruct event; try discriminate;
    cbn [dial_entity_id dial_step_size configured_service dial_press_service
         dial_turn_service] in *; subst;
    try (rewrite (Hstep ltac:(discriminate)));
    unfold event_callback; run_monad; decide_events;
    repeat match goal with
    | |- context [truthy ?s] => destruct (truthy s) eqn:?; run_monad
    | |- context [unpack2 (split_dot_1 ?s)] => split_cases s
    end;
    try backend_cases; auto.
Qed.

(** X8. The step size is applied with its sign, so a negative step size
    swaps the directions: a counter-clockwise turn makes the call a
    clockwise turn makes with the opposite step size. *)
Theorem negative_step_swaps_directions (data : Payload) (w1 w2 : World) :
  dial_entity_id (self w2) = dial_entity_id (self w1) ->
  dial_turn_service (self w2) = dial_turn_service (self w1) ->
  dial_step_size (self w2) = - dial_step_size (self w1) ->
  calls (effects (event_callback bcs TURN_CCW data w2)) =
  calls (effects (event_callback bcs TURN_CW data w1)).
Proof.
  intros He Ht Hs.
  destruct w1 as [[entity1 step1 turn1 press1] st1 b1].
  destruct w2 as [[entity2 step2 turn2 press2] st2 b2].
  cbn [self dial_entity_id dial_step_size dial_turn_service] in *. subst.
  unfold event_callback; run_monad; decide_events;
    rewrite ?Z.opp_involutive;
    repeat match goal with
    | |- context [truthy ?s] => destruct (truthy s) eqn:?; run_monad
    | |- context [unpack2 (split_dot_1 ?s)] => split_cases s
    end; try reflexivity.
  repeat match goal with
  | |- context [bcs ?b ?entity ?service ?parameters] =>
      destruct (bcs b entity service parameters) as [? [| [[| |] ?]]];
      run_monad;
      cbn [isinstance_ValueError isinstance_Exception exc_kind];
      run_monad
  end;
  reflexivity.
Qed.

(** X9. [event_callback] never returns in silence: whenever it returns,
    the last thing it did was print a line (the notice of a skipped
    action, of a success or of a failure); only the hand-over to the base
    class handler comes with no effect at all. *)
Theorem return_ends_with_notice (event : InputEvent) (data : Payload)
    (w : World) :
  (result (event_callback bcs event data w) = inr Return ->
   exists before notice,
     effects (event_callback bcs event data w) =
       (before ++ [EPrint notice])%list) /\
  (forall event' data',
     result (event_callback bcs event data w) = inr (SuperCall event' data') ->
     effects (event_callback bcs event data w) = []).
Proof.
  event_paths w event; (split; [intros Hr | intros event' data' Hr]);
    try discriminate Hr; try reflexivity;
    first [ eexists [], _; reflexivity
          | eexists [_], _; reflexivity
          | eexists [_; _], _; reflexivity ].
Qed.

(** X10. A run of [event_callback] that makes no call leaves everything
    as it was: attributes, stored settings and backend. *)
Theorem no_call_no_change (event : InputEvent) (data : Payload) (w : World) :
  calls (effects (event_callback bcs event data w)) = [] ->
  final (event_callback bcs event data w) = w.
Proof.
  event_paths w event; cbn [calls effects final]; intros Hc;
    first [ discriminate Hc | reflexivity ].
Qed.

End EventProperties.

(** ** Further properties of the settings *)

Section SettingsProperties.

Context {Backend : Type}.

Ltac settings_keys :=
  unfold saved_settings, key_of, SETTING_DIAL_ENTITY_ID,
    SETTING_DIAL_STEP_SIZE, SETTING_DIAL_TURN_SERVICE,
    SETTING_DIAL_PRESS_SERVICE in *.

Lemma saved_agrees (a : DialAction) (m : gmap string Value) :
  persisted_agrees (saved_settings a m) a.
Proof.
  intros f. destruct f; settings_keys; cbn [field_value];
    repeat first [ rewrite lookup_insert_eq
                 | rewrite lookup_insert_ne by congruence ];
    reflexivity.
Qed.

Lemma saved_other_key (a : DialAction) (m : gmap string Value) (key : string) :
  (forall f, key <> key_of f) -> saved_settings a m !! key = m !! key.
Proof.
  intros Hk.
  pose proof (Hk F_entity_id). pose proof (Hk F_step_size).
  pose proof (Hk F_turn_service). pose proof (Hk F_press_service).
  settings_keys.
  repeat rewrite lookup_insert_ne by congruence. reflexivity.
Qed.

Lemma saved_over_saved (a a' : DialAction) (m : gmap string Value) :
  saved_settings a (saved_settings a' m) = saved_settings a m.
Proof.
  apply map_eq. intros key. settings_keys.
  rewrite !lookup_insert.
  repeat case_decide; subst; first [reflexivity | congruence].
Qed.

Lemma save_run (w : World (Backend := Backend)) :
  _save_dial_settings w =
  mkRun [ESetSettings (saved_settings (self w) (settings w))]
        (mkWorld (self w) (saved_settings (self w) (settings w)) (backend w))
        (inr tt).
Proof. reflexivity. Qed.

Lemma change_run (c : FieldChange) (w : World (Backend := Backend)) :
  onFieldChanged c w =
  mkRun [ESetSettings (saved_settings (assigned c (self w)) (settings w))]
        (mkWorld (assigned c (self w))
                 (saved_settings (assigned c (self w)) (settings w))
                 (backend w))
        (inr tt).
Proof. destruct c; reflexivity. Qed.

(** X11. Loading what [_save_dial_settings] wrote gives the attributes
    back, whatever the store held before; the save itself leaves the
    attributes and every key other than its four as they were. *)
Theorem save_load_roundtrip (w : World (Backend := Backend)) :
  _load_dial_settings (settings (final (_save_dial_settings w))) =
    attributes_of (self w) /\
  self (final (_save_dial_settings w)) = self w /\
  (forall key, (forall f, key <> key_of f) ->
     settings (final (_save_dial_settings w)) !! key = settings w !! key).
Proof.
  rewrite save_run. cbn [final settings self]. split_and!.
  - apply load_agrees, saved_agrees.
  - reflexivity.
  - intros key Hk. now apply saved_other_key.
Qed.

(** X12. Saving is idempotent: a second save right after a first writes
    the same record again and leaves the same state. *)
Theorem save_idempotent (w : World (Backend := Backend)) :
  _save_dial_settings (final (_save_dial_settings w)) = _save_dial_settings w.
Proof.
  rewrite !save_run. cbn [final settings self backend].
  now rewrite saved_over_saved.
Qed.

Lemma calls_app (l l' : list Effect) :
  calls (l ++ l') = (calls l ++ calls l')%list.
Proof.
  induction l as [| [n | entity service parameters | m] l IH]; simpl;
    [reflexivity | | f_equal |]; exact IH.
Qed.

Lemma writes_app (l l' : list Effect) :
  writes (l ++ l') = (writes l ++ writes l')%list.
Proof.
  induction l as [| [n | entity service parameters | m] l IH]; simpl;
    [reflexivity | | | f_equal]; exact IH.
Qed.

(** A series of changes in one step: the attributes assigned in order,
    the store saved from them, one write per change and no call. *)
Lemma series_run (cs : list FieldChange) (w : World (Backend := Backend)) :
  exists l,
    onFieldsChanged cs w =
      mkRun l
        (mkWorld (assigned_all cs (self w))
                 (match cs with
                  | [] => settings w
                  | _ :: _ =>
                      saved_settings (assigned_all cs (self w)) (settings w)
                  end)
                 (backend w))
        (inr tt) /\
    length (writes l) = length cs /\
    calls l = [].
Proof.
  revert w. induction cs as [| c rest IH]; intros w.
  - exists []. destruct w. repeat split.
  - cbn [onFieldsChanged]. unfold bind. rewrite change_run.
    destruct (IH (mkWorld (assigned c (self w))
                          (saved_settings (assigned c (self w)) (settings w))
                          (backend w))) as (l & Hrun & Hw & Hc).
    rewrite Hrun. cbn [self settings backend].
    eexists. split_and!.
    + f_equal. f_equal. destruct rest; [reflexivity |].
      now rewrite saved_over_saved.
    + cbn [app writes length]. now rewrite Hw.
    + exact Hc.
Qed.

(** X13. Every change is written through: a series of changes runs to
    its end, writes the settings once per change, never calls the backend
    and leaves it as it was. After at least one change the stored settings
    agree with the attributes, and they keep agreeing if they did before. *)
Theorem series_written_through (cs : list FieldChange)
    (w : World (Backend := Backend)) :
  result (onFieldsChanged cs w) = inr tt /\
  length (writes (effects (onFieldsChanged cs w))) = length cs /\
  calls (effects (onFieldsChanged cs w)) = [] /\
  backend (final (onFieldsChanged cs w)) = backend w /\
  self (final (onFieldsChanged cs w)) = assigned_all cs (self w) /\
  (cs <> [] ->
   persisted_agrees (settings (final (onFieldsChanged cs w)))
                    (self (final (onFieldsChanged cs w)))) /\
  (persisted_agrees (settings w) (self w) ->
   persisted_agrees (settings (final (onFieldsChanged cs w)))
                    (self (final (onFieldsChanged cs w)))).
Proof.
  destruct (series_run cs w) as (l & -> & Hw & Hc).
  cbn [result effects final self settings backend]. split_and!; auto.
  - intros Hne. destruct cs; [congruence | apply saved_agrees].
  - intros Ha. destruct cs; [exact Ha | apply saved_agrees].
Qed.

(** X14. What was configured survives a restart: after at least one
    change, a new instance created on the stored settings starts with the
    attributes the old one ended with. *)
Theorem restart_restores_attributes (cs : list FieldChange)
    (w : World (Backend := Backend)) (b' : Backend) :
  cs <> [] ->
  __init__ (settings (final (onFieldsChanged cs w))) b' =
    Some (mkWorld (self (final (onFieldsChanged cs w)))
                  (settings (final (onFieldsChanged cs w))) b').
Proof.
  intros Hne. destruct (series_run cs w) as (l & -> & _ & _).
  cbn [final self settings]. destruct cs as [| c rest]; [congruence |].
  unfold __init__.
  now rewrite (load_agrees _ _ (saved_agrees _ _)), typed_attributes_of.
Qed.

(** X15. Changes of different fields commute: in either order they end
    in the same attributes and the same stored settings. *)
Theorem changes_of_different_fields_commute (c1 c2 : FieldChange)
    (w : World (Backend := Backend)) :
  changed_field c1 <> changed_field c2 ->
  final (onFieldsChanged [c1; c2] w) = final (onFieldsChanged [c2; c1] w).
Proof.
  intros Hne.
  destruct (series_run [c1; c2] w) as (l & -> & _ & _).
  destruct (series_run [c2; c1] w) as (l' & -> & _ & _).
  cbn [final]. unfold assigned_all. cbn [fold_left].
  assert (assigned c2 (assigned c1 (self w)) =
          assigned c1 (assigned c2 (self w))) as ->; [| reflexivity].
  destruct c1, c2; cbn in Hne; try congruence; reflexivity.
Qed.

(** X16. Of two changes of the same field the later one stands: the end
    state is that of the second change alone. *)
Theorem later_change_of_a_field_stands (c1 c2 : FieldChange)
    (w : World (Backend := Backend)) :
  changed_field c1 = changed_field c2 ->
  final (onFieldsChanged [c1; c2] w) = final (onFieldChanged c2 w).
Proof.
  intros Heq.
  destruct (series_run [c1; c2] w) as (l & -> & _ & _).
  rewrite change_run. cbn [final]. unfold assigned_all. cbn [fold_left].
  assert (assigned c2 (assigned c1 (self w)) = assigned c2 (self w)) as ->;
    [| reflexivity].
  destruct c1, c2; cbn in Heq; try congruence; reflexivity.
Qed.

Lemma typed_load_fields (m : gmap string Value) (a : DialAction) (f : Field) :
  typed (_load_dial_settings m) = Some a ->
  field_value f a =
  match m !! key_of f with
  | Some v => v
  | None => field_value f init_attributes
  end.
Proof.
  unfold _load_dial_settings, dict_get, typed. intros Ht.
  destruct (m !! SETTING_DIAL_ENTITY_ID) as [[? | ?] |] eqn:H1;
    try discriminate Ht;
    (destruct (m !! SETTING_DIAL_STEP_SIZE) as [[? | ?] |] eqn:H2;
     try discriminate Ht);
    (destruct (m !! SETTING_DIAL_TURN_SERVICE) as [[? | ?] |] eqn:H3;
     try discriminate Ht);
    (destruct (m !! SETTING_DIAL_PRESS_SERVICE) as [[? | ?] |] eqn:H4;
     try discriminate Ht);
    injection Ht as <-; destruct f; cbn [key_of field_value];
    rewrite ?H1, ?H2, ?H3, ?H4; reflexivity.
Qed.

Lemma well_typed_load (m : gmap string Value) :
  well_typed_store m -> exists a, typed (_load_dial_settings m) = Some a.
Proof.
  intros Hwt.
  pose proof (Hwt F_entity_id) as H1. pose proof (Hwt F_step_size) as H2.
  pose proof (Hwt F_turn_service) as H3. pose proof (Hwt F_press_service) as H4.
  cbn [key_of] in H1, H2, H3, H4.
  unfold _load_dial_settings, dict_get, typed.
  destruct (m !! SETTING_DIAL_ENTITY_ID) as [[? | ?] |];
    try (exfalso; exact (H1 _ eq_refl));
    (destruct (m !! SETTING_DIAL_STEP_SIZE) as [[? | ?] |];
     try (exfalso; exact (H2 _ eq_refl)));
    (destruct (m !! SETTING_DIAL_TURN_SERVICE) as [[? | ?] |];
     try (exfalso; exact (H3 _ eq_refl)));
    (destruct (m !! SETTING_DIAL_PRESS_SERVICE) as [[? | ?] |];
     try (exfalso; exact (H4 _ eq_refl)));
    eexists; reflexivity.
Qed.

Lemma key_of_four (key : string) :
  (exists f, key = key_of f) \/ (forall f, key <> key_of f).
Proof.
  destruct (decide (key = key_of F_entity_id)); [left; eauto |].
  destruct (decide (key = key_of F_step_size)); [left; eauto |].
  destruct (decide (key = key_of F_turn_service)); [left; eauto |].
  destruct (decide (key = key_of F_press_service)); [left; eauto |].
  right. intros f. destruct f; assumption.
Qed.

(** X17. Loading and then saving never changes what is stored: on a
    store whose values under the four keys have the annotated types, a new
    instance exists, and its first save keeps every value the store held
    and only adds, under those of the four keys that were missing, the
    defaults of [__init__] (empty string, step size 1). *)
Theorem load_then_save_adds_defaults (m : gmap string Value) (b : Backend) :
  well_typed_store m ->
  exists w,
    __init__ m b = Some w /\
    (forall key v,
       m !! key = Some v ->
       settings (final (_save_dial_settings w)) !! key = Some v) /\
    (forall f,
       m !! key_of f = None ->
       settings (final (_save_dial_settings w)) !! key_of f =
         Some (field_value f init_attributes)) /\
    (forall key,
       (forall f, key <> key_of f) ->
       settings (final (_save_dial_settings w)) !! key = m !! key).
Proof.
  intros Hwt. destruct (well_typed_load m Hwt) as [a Ha].
  exists (mkWorld a m b). unfold __init__. rewrite Ha.
  split; [reflexivity |]. rewrite save_run. cbn [final settings self].
  split_and!.
  - intros key v Hv. destruct (key_of_four key) as [[f ->] | Hk].
    + rewrite (saved_agrees a m f), (typed_load_fields m a f Ha), Hv.
      reflexivity.
    + now rewrite saved_other_key.
  - intros f Hf.
    rewrite (saved_agrees a m f), (typed_load_fields m a f Ha), Hf.
    reflexivity.
  - intros key Hk. now apply saved_other_key.
Qed.

(** X18. [_load_dial_settings] reads its four keys and nothing else: two
    stores that agree on them load the same attributes. *)
Theorem load_reads_four_keys (m1 m2 : gmap string Value) :
  (forall f, m1 !! key_of f = m2 !! key_of f) ->
  _load_dial_settings m1 = _load_dial_settings m2.
Proof.
  intros H.
  pose proof (H F_entity_id) as H1. pose proof (H F_step_size) as H2.
  pose proof (H F_turn_service) as H3. pose proof (H F_press_service) as H4.
  cbn [key_of] in *.
  unfold _load_dial_settings, dict_get.
  now rewrite H1, H2, H3, H4.
Qed.

Lemma python_int_within_bounds (adjustment : Adjustment) :
  within_bounds adjustment ->
  STEP_LOWER <= python_int (get_value adjustment) <= STEP_UPPER.
Proof.
  intros [Hlo Hhi]. destruct adjustment as [[n d]].
  unfold QArith_base.Qle in Hlo, Hhi. cbn in Hlo, Hhi |- *.
  unfold python_int, STEP_LOWER, STEP_UPPER in *. cbn.
  split.
  - apply Z.quot_le_lower_bound; lia.
  - apply Z.quot_le_upper_bound; lia.
Qed.

(** X19. A value of the step size row within the bounds of its
    adjustment (1 to 100, integral or not) is stored as an integer step
    size within the same bounds. *)
Theorem step_size_stays_within_bounds (adjustment : Adjustment)
    (w : World (Backend := Backend)) :
  within_bounds adjustment ->
  STEP_LOWER <= dial_step_size
                  (self (final (_on_dial_step_size_changed adjustment w)))
             <= STEP_UPPER /\
  settings (final (_on_dial_step_size_changed adjustment w))
    !! SETTING_DIAL_STEP_SIZE =
  Some (VInt (dial_step_size
                (self (final (_on_dial_step_size_changed adjustment w))))).
Proof.
  intros Hb.
  change (_on_dial_step_size_changed adjustment w)
    with (onFieldChanged (StepSizeChanged adjustment) w).
  rewrite change_run. cbn [final self settings assigned dial_step_size].
  split.
  - now apply python_int_within_bounds.
  - exact (saved_agrees _ _ F_step_size).
Qed.

End SettingsProperties.

(** ** Configuring, then using the dial *)

Section Configured.

Context {Backend Payload : Type}.
Variable bcs :
  Backend -> string -> string -> gmap string Value -> Backend * CallResult.

(** The changes add no call of their own: the calls of an event that
    follows them are those of the event in the state they leave. *)
Lemma changes_then_event_calls (cs : list FieldChange) (event : InputEvent)
    (data : Payload) (w : World) :
  calls (effects (changes_then_event bcs cs event data w)) =
  calls (effects (event_callback bcs event data
                    (mkWorld (assigned_all cs (self w))
                             (match cs with
                              | [] => settings w
                              | _ :: _ =>
                                  saved_settings (assigned_all cs (self w))
                                                 (settings w)
                              end)
                             (backend w)))).
Proof.
  unfold changes_then_event, bind.
  destruct (series_run cs w) as (l & -> & _ & Hc).
  destruct (event_callback bcs event data _) as [l' w' x].
  cbn [effects]. now rewrite calls_app, Hc.
Qed.

(** X20. Configuring through the rows and then pressing the dial works
    from any starting state: once the entity id row and the press service
    row were set, to a non-empty entity id and to a service of the form
    domain, dot, name, a press calls that name on that entity, once. *)
Theorem configure_then_press (data : Payload) (w : World)
    (entity domain name : string) :
  entity <> "" ->
  contains_dot domain = false ->
  calls (effects (changes_then_event bcs
                    [EntityIdChanged (mkEntryRow entity);
                     PressServiceChanged
                       (mkEntryRow (domain +:+ "." +:+ name))]
                    DOWN data w)) =
    [(entity, name, {[ "entity_id" := VStr entity ]})].
Proof.
  intros He Hd. rewrite changes_then_event_calls.
  rewrite (event_calls_of_split bcs DOWN data _ domain name);
    [reflexivity | exact He | reflexivity |].
  cbn. now apply partition_dot_app.
Qed.

(** X21. A step size set through its row within the bounds of the
    adjustment is what the turns then send: with a non-empty entity id and
    a turn service with a dot, a clockwise turn sends a
    [brightness_step_pct] between 1 and 100 and a counter-clockwise turn
    its negation. *)
Theorem bounded_step_sent_by_turns (data : Payload) (w : World)
    (adjustment : Adjustment) :
  within_bounds adjustment ->
  dial_entity_id (self w) <> "" ->
  contains_dot (dial_turn_service (self w)) = true ->
  exists service_name step,
    STEP_LOWER <= step <= STEP_UPPER /\
    calls (effects (changes_then_event bcs [StepSizeChanged adjustment]
                      TURN_CW data w)) =
      [(dial_entity_id (self w), service_name,
        {[ "entity_id" := VStr (dial_entity_id (self w));
           "brightness_step_pct" := VInt step ]})] /\
    calls (effects (changes_then_event bcs [StepSizeChanged adjustment]
                      TURN_CCW data w)) =
      [(dial_entity_id (self w), service_name,
        {[ "entity_id" := VStr (dial_entity_id (self w));
           "brightness_step_pct" := VInt (- step) ]})].
Proof.
  intros Hb He Hd.
  destruct (partition_dot_some _ Hd) as (domain & name & Hp & _ & _).
  exists name, (python_int (get_value adjustment)).
  split; [now apply python_int_within_bounds |].
  rewrite !changes_then_event_calls.
  split.
  - rewrite (event_calls_of_split bcs TURN_CW data _ domain name);
      [reflexivity | exact He | reflexivity | exact Hp].
  - rewrite (event_calls_of_split bcs TURN_CCW data _ domain name);
      [reflexivity | exact He | reflexivity | exact Hp].
Qed.

End Configured.

(** ** The further properties on concrete configurations *)

Lemma call_ignores_domain_witness :
  calls (effects (event_callback counting_backend DOWN (∅ : gmap string Value)
                    (world_of (mkDialAction "light.living_room" 1 ""
                                            "switch.toggle")))) =
  calls (effects (event_callback counting_backend DOWN (∅ : gmap string Value)
                    (world_of living_room))).
Proof.
  apply (call_ignores_domain counting_backend DOWN (∅ : gmap string Value)
           (world_of living_room)
           (world_of (mkDialAction "light.living_room" 1 "" "switch.toggle"))
           "toggle");
    [reflexivity | discriminate | reflexivity | reflexivity
    | reflexivity | reflexivity].
Defined.


Lemma event_reads_only_its_fields_witness :
  effects (event_callback counting_backend DOWN (∅ : gmap string Value)
             (mkWorld living_room ∅ 0%nat)) =
  effects (event_callback counting_backend DOWN (∅ : gmap string Value)
             (mkWorld (mkDialAction "light.living_room" 50 "light.turn_on"
                                    "light.toggle")
                      {[ "dial_entity_id" := VStr "light.other" ]} 0%nat)).
Proof.
  apply (event_reads_only_its_fields counting_backend DOWN
           (∅ : gmap string Value) living_room
           (mkDialAction "light.living_room" 50 "light.turn_on" "light.toggle")
           ∅ {[ "dial_entity_id" := VStr "light.other" ]} 0%nat);
    [reflexivity | reflexivity | reflexivity | intros H; now destruct H].
Defined.

Lemma negative_step_swaps_directions_witness :
  calls (effects (event_callback counting_backend TURN_CCW
                    (∅ : gmap string Value) (world_of (office (-5))))) =
  calls (effects (event_callback counting_backend TURN_CW
                    (∅ : gmap string Value) (world_of (office 5)))).
Proof.
  apply (negative_step_swaps_directions counting_backend
           (∅ : gmap string Value) (world_of (office 5))
           (world_of (office (-5))));
    reflexivity.
Defined.

Lemma no_call_no_change_witness :
  calls (effects (event_callback counting_backend TURN_CW
                    (∅ : gmap string Value) (world_of invalid_format))) = [] /\
  final (event_callback counting_backend TURN_CW (∅ : gmap string Value)
           (world_of invalid_format)) = world_of invalid_format.
Proof.
  split; [reflexivity |].
  apply (no_call_no_change counting_backend TURN_CW (∅ : gmap string Value)
           (world_of invalid_format)).
  reflexivity.
Defined.

Lemma restart_restores_attributes_witness :
  [EntityIdChanged (mkEntryRow "light.office")] <> [] /\
  __init__ (settings (final (onFieldsChanged
                               [EntityIdChanged (mkEntryRow "light.office")]
                               (world_of init_attributes)))) 7%nat =
    Some (mkWorld
            (self (final (onFieldsChanged
                            [EntityIdChanged (mkEntryRow "light.office")]
                            (world_of init_attributes))))
            (settings (final (onFieldsChanged
                                [EntityIdChanged (mkEntryRow "light.office")]
                                (world_of init_attributes))))
            7%nat).
Proof.
  split; [discriminate |].
  apply (restart_restores_attributes
           [EntityIdChanged (mkEntryRow "light.office")]
           (world_of init_attributes) 7%nat).
  discriminate.
Defined.

Lemma changes_of_different_fields_commute_witness :
  final (onFieldsChanged [EntityIdChanged (mkEntryRow "light.office");
                          TurnServiceChanged (mkEntryRow "light.turn_on")]
                         (world_of init_attributes)) =
  final (onFieldsChanged [TurnServiceChanged (mkEntryRow "light.turn_on");
                          EntityIdChanged (mkEntryRow "light.office")]
                         (world_of init_attributes)).
Proof.
  apply (changes_of_different_fields_commute
           (EntityIdChanged (mkEntryRow "light.office"))
           (TurnServiceChanged (mkEntryRow "light.turn_on"))
           (world_of init_attributes)).
  discriminate.
Defined.

Lemma later_change_of_a_field_stands_witness :
  final (onFieldsChanged [EntityIdChanged (mkEntryRow "light.off");
                          EntityIdChanged (mkEntryRow "light.office")]
                         (world_of init_attributes)) =
  final (onFieldChanged (EntityIdChanged (mkEntryRow "light.office"))
                        (world_of init_attributes)).
Proof.
  apply (later_change_of_a_field_stands
           (EntityIdChanged (mkEntryRow "light.off"))
           (EntityIdChanged (mkEntryRow "light.office"))
           (world_of init_attributes)).
  reflexivity.
Defined.

Lemma load_then_save_adds_defaults_witness :
  well_typed_store {[ "dial_step_size" := VInt 5 ]} /\
  exists w,
    __init__ {[ "dial_step_size" := VInt 5 ]} 0%nat = Some w /\
    (forall key v,
       ({[ "dial_step_size" := VInt 5 ]} : gmap string Value) !! key = Some v ->
       settings (final (_save_dial_settings w)) !! key = Some v) /\
    (forall f,
       ({[ "dial_step_size" := VInt 5 ]} : gmap string Value) !! key_of f
         = None ->
       settings (final (_save_dial_settings w)) !! key_of f =
         Some (field_value f init_attributes)) /\
    (forall key,
       (forall f, key <> key_of f) ->
       settings (final (_save_dial_settings w)) !! key =
         ({[ "dial_step_size" := VInt 5 ]} : gmap string Value) !! key).
Proof.
  assert (Hwt : well_typed_store {[ "dial_step_size" := VInt 5 ]}).
  { intros f v. destruct f; cbn [key_of]; intros H;
      first [ discriminate H | injection H as <-; exact I ]. }
  split; [exact Hwt |].
  exact (load_then_save_adds_defaults {[ "dial_step_size" := VInt 5 ]}
           0%nat Hwt).
Defined.

(** The first save after loading a store that held only the step size. *)
Example first_save_adds_defaults :
  option_map (fun w => settings (final (_save_dial_settings w)))
             (__init__ {[ "dial_step_size" := VInt 5 ]} 0%nat) =
  Some {[ "dial_entity_id" := VStr "";
          "dial_step_size" := VInt 5;
          "dial_turn_service" := VStr "";
          "dial_press_service" := VStr "" ]}.
Proof. vm_compute. reflexivity. Qed.

Lemma load_reads_four_keys_witness :
  _load_dial_settings {[ "state_entity" := VStr "sensor.door" ]} =
  _load_dial_settings ∅.
Proof.
  apply (load_reads_four_keys {[ "state_entity" := VStr "sensor.door" ]} ∅).
  intros f. destruct f; reflexivity.
Defined.

Lemma step_size_stays_within_bounds_witness :
  within_bounds (mkAdjustment (QArith_base.Qmake 5 2)) /\
  STEP_LOWER <= dial_step_size
                  (self (final (_on_dial_step_size_changed
                                  (mkAdjustment (QArith_base.Qmake 5 2))
                                  (world_of living_room))))
             <= STEP_UPPER.
Proof.
  assert (Hb : within_bounds (mkAdjustment (QArith_base.Qmake 5 2))).
  { split; unfold QArith_base.Qle, STEP_LOWER, STEP_UPPER; simpl; lia. }
  split; [exact Hb |].
  apply (step_size_stays_within_bounds (mkAdjustment (QArith_base.Qmake 5 2))
           (world_of living_room) Hb).
Defined.

Lemma configure_then_press_witness :
  calls (effects (changes_then_event counting_backend
                    [EntityIdChanged (mkEntryRow "light.living_room");
                     PressServiceChanged
                       (mkEntryRow ("light" +:+ "." +:+ "toggle"))]
                    DOWN (∅ : gmap string Value) (world_of unconfigured))) =
    [("light.living_room", "toggle",
      {[ "entity_id" := VStr "light.living_room" ]})].
Proof.
  apply (configure_then_press counting_backend (∅ : gmap string Value)
           (world_of unconfigured) "light.living_room" "light" "toggle");
    [discriminate | reflexivity].
Defined.

Lemma bounded_step_sent_by_turns_witness :
  exists service_name step,
    STEP_LOWER <= step <= STEP_UPPER /\
    calls (effects (changes_then_event counting_backend
                      [StepSizeChanged (mkAdjustment (QArith_base.Qmake 5 2))]
                      TURN_CW (∅ : gmap string Value) (world_of (office 10)))) =
      [(dial_entity_id (self (world_of (office 10))), service_name,
        {[ "entity_id" := VStr (dial_entity_id (self (world_of (office 10))));
           "brightness_step_pct" := VInt step ]})] /\
    calls (effects (changes_then_event counting_backend
                      [StepSizeChanged (mkAdjustment (QArith_base.Qmake 5 2))]
                      TURN_CCW (∅ : gmap string Value) (world_of (office 10)))) =
      [(dial_entity_id (self (world_of (office 10))), service_name,
        {[ "entity_id" := VStr (dial_entity_id (self (world_of (office 10))));
           "brightness_step_pct" := VInt (- step) ]})].
Proof.
  apply (bounded_step_sent_by_turns counting_backend (∅ : gmap string Value)
           (world_of (office 10)) (mkAdjustment (QArith_base.Qmake 5 2)));
    [split; unfold QArith_base.Qle, STEP_LOWER, STEP_UPPER; simpl; lia | discriminate | reflexivity].
Defined.

(** A value of 5/2 on the step size row is stored as 2. *)
Example step_size_truncated :
  self (final (_on_dial_step_size_changed
                 (mkAdjustment (QArith_base.Qmake 5 2))
                 (world_of living_room))) =
  mkDialAction "light.living_room" 2 "" "light.toggle".
Proof. reflexivity. Qed.
